(** * saleor/product/views.py: the product catalogue views

    A shallow embedding of the three view functions of
    [saleor/product/views.py] ([product_details], [product_add_to_cart] and
    [category_index]) and the properties of their responses.

    The views are glue over the web framework and over the rest of the
    project.  The framework's request and response objects are modelled as
    records, the database and the clock as a [World] threaded through a state
    and exception monad, and the project's helpers that [views.py] imports
    (the query sets, the cart form, the pricing helpers, the URL
    configuration) as the operations of a type class [Site]. *)

From Stdlib Require Import ZArith Ascii String List Bool.
From stdpp Require Import base decidable option list gmap strings pretty.

Local Open Scope Z_scope.
Local Open Scope string_scope.

(** ** Data model *)

(** [datetime.date], as its proleptic Gregorian ordinal ([date.toordinal()]):
    the comparison of two dates is the comparison of their ordinals. *)
Definition date : Type := Z.

(** [request.user]: Django's [AnonymousUser], or a [User] row. *)
Inductive User : Type :=
  | AnonymousUser
  | AuthUser (user_pk : Z) (is_staff : bool).

Definition is_authenticated (u : User) : bool :=
  match u with
  | AnonymousUser => false
  | AuthUser _ _ => true
  end.

(** [QueryDict] ([request.GET], [request.POST]): the key and value pairs in
    the order of the query string; a key may occur several times. *)
Definition QueryDict : Type := list (string * string).

(** [QueryDict.get(key)]: the last value given for the key, [None] when the
    key is absent. *)
Definition QueryDict_get (key : string) (q : QueryDict) : option string :=
  fold_left (fun acc kv => if decide (kv.1 = key) then Some kv.2 else acc)
            q None.

(** Truth value of a [QueryDict]: false when it has no key. *)
Definition QueryDict_bool (q : QueryDict) : bool :=
  match q with
  | [] => false
  | _ :: _ => true
  end.

(** Modelled from the spec: the models of [saleor/product/models.py] and
    [saleor/cart/models.py] are not part of the sources.  The fields are the
    ones the spec's data model names and the views read: a variant holds
    attributes, a product has an identifier, an availability date, variants
    and categories, a category has an identifier, a cart is a collection of
    line items owned by a user or by a session token. *)
Record ProductVariant : Type := {
  variant_pk : Z;
  attributes : list (string * string)
}.

(** A product row. *)
Record Product : Type := {
  product_pk : Z;
  product_name : string;
  available_on : option date;
  variants : list ProductVariant;
  product_categories : list Z
}.

(** A category row; [category_parent] is the key of the category above. *)
Record Category : Type := {
  category_pk : Z;
  category_slug : string;
  category_parent : option Z
}.

(** A cart row: its token, its owner if it has one, and its lines, each a
    variant's key with a quantity. *)
Record Cart : Type := {
  token : string;
  cart_user : option Z;
  lines : list (Z * Z)
}.

(** A Django model: rows are looked up by primary key. *)
Class Model (A : Type) : Type := pk : A → Z.

#[global] Instance Product_Model : Model Product := product_pk.
#[global] Instance Category_Model : Model Category := category_pk.

(** Everything outside the request: the clock ([datetime.date.today()]) and
    the tables of the database. *)
Record World : Type := {
  today : date;
  product_table : list Product;
  category_table : list Category;
  cart_table : list Cart
}.

(** ** The types of the values the helpers hand to the views

    The views only pass these values along, from one helper to the next or
    into the template context. *)
Class SiteTypes : Type := {
  Discounts : Type;
  Availability : Type;
  ProductImages : Type;
  ProductAttributes : Type;
  JsonData : Type;
  FormErrors : Type;
  ProductFilter : Type;
  Page : Type;
  SortChoices : Type
}.

Section Objects.
Context `{SiteTypes}.

(** [HttpRequest], with the attributes the project's middleware adds
    ([discounts], [currency]). *)
Record Request : Type := {
  method : string;
  user : User;
  HTTP_X_REQUESTED_WITH : option string;
  GET : QueryDict;
  POST : QueryDict;
  COOKIES : gmap string string;
  discounts : Discounts;
  currency : string
}.

(** [request.is_ajax()]:
    [self.META.get('HTTP_X_REQUESTED_WITH') == 'XMLHttpRequest']. *)
Definition is_ajax (request : Request) : bool :=
  bool_decide (HTTP_X_REQUESTED_WITH request = Some "XMLHttpRequest").

(** The add-to-cart form: [handle_cart_form] builds it from the cart, the
    product, [request.POST or None] and the request's discounts. *)
Record Form : Type := {
  form_cart : Cart;
  form_product : Product;
  form_data : option QueryDict;
  form_discounts : Discounts
}.

(** The context of [product/details.html]. *)
Record DetailsContext : Type := {
  is_visible : bool;
  form : Form;
  availability : Availability;
  product : Product;
  product_attributes : ProductAttributes;
  product_images : ProductImages;
  show_variant_picker : bool;
  variant_picker_data : string;
  json_ld_product_data : string
}.

(** The context of [category/index.html]; [filter_] is its key
    ['filter']. *)
Record CategoryContext : Type := {
  category : Category;
  filter_ : ProductFilter;
  products : list (Product * Availability);
  products_paginated : Page;
  sort_by_choices : SortChoices;
  now_sorted_by : string;
  is_descending : bool
}.

Inductive Context : Type :=
  | DetailsCtx (ctx : DetailsContext)
  | CategoryCtx (ctx : CategoryContext).

(** The values of the JSON bodies the views build. *)
Inductive JsonValue : Type :=
  | JsonString (s : string)
  | JsonErrors (e : FormErrors).

Inductive Content : Type :=
  | NoContent
  | JsonContent (data : gmap string JsonValue)
  | TemplateContent (template_name : string) (context : Context).

(** [HttpResponse]: status, the [Location] header, the body and the
    cookies set on it. *)
Record Response : Type := {
  status_code : Z;
  location : option string;
  content : Content;
  cookies : gmap string string
}.

Definition HttpResponseRedirect (url : string) : Response :=
  {| status_code := 302; location := Some url;
     content := NoContent; cookies := ∅ |}.

Definition HttpResponsePermanentRedirect (url : string) : Response :=
  {| status_code := 301; location := Some url;
     content := NoContent; cookies := ∅ |}.

Definition JsonResponse (data : gmap string JsonValue) (status : Z)
  : Response :=
  {| status_code := status; location := None;
     content := JsonContent data; cookies := ∅ |}.

Definition TemplateResponse (request : Request) (template : string)
    (context : Context) : Response :=
  {| status_code := 200; location := None;
     content := TemplateContent template context; cookies := ∅ |}.

(** [response.set_signed_cookie(key, value)]. *)
Definition set_signed_cookie (response : Response) (key value : string)
  : Response :=
  {| status_code := status_code response; location := location response;
     content := content response;
     cookies := <[key := value]> (cookies response) |}.
End Objects.

(** ** Effects: the world and exceptions

    A view reads and changes the world and may raise.  What it changed before
    raising stays changed. *)
Inductive Exn : Type :=
  | Http404
  | DoesNotExist
  | MultipleObjectsReturned.

Inductive Result (A : Type) : Type :=
  | Ok (a : A)
  | Raise (e : Exn).
Arguments Ok {A} a.
Arguments Raise {A} e.

Definition M (A : Type) : Type := World → Result A * World.

Definition ret {A} (a : A) : M A := fun w => (Ok a, w).

Definition raise {A} (e : Exn) : M A := fun w => (Raise e, w).

Definition bind {A B} (c : M A) (k : A → M B) : M B :=
  fun w =>
    match c w with
    | (Ok a, w') => k a w'
    | (Raise e, w') => (Raise e, w')
    end.

(** A query: it reads the world and leaves it as it is. *)
Definition reads {A} (f : World → A) : M A := fun w => (Ok (f w), w).

(** A write: it changes the world and returns nothing. *)
Definition writes (f : World → World) : M unit := fun w => (Ok tt, f w).

(** A helper that may raise but does not touch the world. *)
Definition lift {A} (r : Result A) : M A := fun w => (r, w).

Notation "'let*' x ':=' c1 'in' c2" := (bind c1 (fun x => c2))
  (at level 10, x name, c1 at level 100, c2 at level 200).
Notation "'let*' ' pat ':=' c1 'in' c2" :=
  (bind c1 (fun x => match x with pat => c2 end))
  (at level 10, pat pattern, c1 at level 100, c2 at level 200).

(** ** Django shortcuts *)

(** [QuerySet.get(pk=id)]: the row with this primary key; it raises
    [DoesNotExist] when no row matches and [MultipleObjectsReturned] when
    several do. *)
Definition QuerySet_get {A} `{Model A} (queryset : list A) (id : Z)
  : Result A :=
  match base.filter (fun x => pk x = id) queryset with
  | [] => Raise DoesNotExist
  | [x] => Ok x
  | _ :: _ :: _ => Raise MultipleObjectsReturned
  end.

(** [get_object_or_404(queryset, pk=id)]: [queryset.get(pk=id)], with
    [DoesNotExist] turned into [Http404]. *)
Definition get_object_or_404 {A} `{Model A} (queryset : list A) (id : Z)
  : M A :=
  match QuerySet_get queryset id with
  | Raise DoesNotExist => raise Http404
  | r => lift r
  end.

(** A keyword argument of [reverse]: a string or an integer. *)
Inductive UrlArg : Type :=
  | ArgStr (s : string)
  | ArgInt (z : Z).

(** The first argument of [redirect]: a URL, used as it is, or the name of a
    URL pattern with its keyword arguments, resolved by [reverse]. *)
Inductive RedirectTo : Type :=
  | ToUrl (url : string)
  | ToView (viewname : string) (kwargs : list (string * UrlArg)).

(** [str.startswith]. *)
Definition startswith (prefix s : string) : bool := String.prefix prefix s.

(** Truth value of a string: false when empty. *)
Definition str_bool (s : string) : bool :=
  match s with
  | EmptyString => false
  | String _ _ => true
  end.

(** ** The rest of the project

    The helpers [views.py] imports from [saleor/product/utils.py],
    [saleor/product/filters.py], [saleor/product/models.py],
    [saleor/core/utils] and the settings, and the URL configuration behind
    [reverse].  None of them is part of the sources; the views are verified
    for every implementation of this interface.  A helper that only queries
    the database takes the world and returns a value; the two that write
    ([handle_cart_form], which may create the cart, and the form's [save])
    are computations. *)
Class Site `{SiteTypes} : Type := {
  (* django.urls.reverse over the project's URL patterns *)
  reverse : string → list (string * UrlArg) → string;
  (* settings.PAGINATE_BY *)
  PAGINATE_BY : Z;
  (* Product.get_slug(), Product.get_absolute_url() *)
  get_slug : Product → string;
  get_absolute_url : Product → string;
  (* Category.get_full_path() *)
  get_full_path : Category → World → string;
  (* product/utils.py *)
  products_with_details : User → World → list Product;
  products_for_cart : User → World → list Product;
  handle_cart_form : Request → Product → bool → M (Form * Cart);
  get_availability : Product → Discounts → string → World → Availability;
  get_product_images : Product → World → ProductImages;
  get_variant_picker_data : Product → Discounts → string → World → JsonData;
  get_product_attributes_data : Product → World → ProductAttributes;
  product_json_ld :
    Product → Availability → ProductAttributes → World → JsonData;
  products_with_availability :
    Page → Discounts → string → World → list (Product * Availability);
  (* the add-to-cart form: form.is_valid(), form.errors, form.save() *)
  form_is_valid : Form → World → bool;
  form_errors : Form → World → FormErrors;
  form_save : Form → World → World;
  (* json.dumps(data, default=serialize_decimal) *)
  json_dumps : JsonData → string;
  (* QuerySet.order_by('name') *)
  order_by_name : list Product → list Product;
  (* product/filters.py: ProductFilter(data, queryset=, category=) and .qs *)
  ProductFilter_init : QueryDict → list Product → Category → ProductFilter;
  qs : ProductFilter → list Product;
  (* core/utils *)
  get_paginator_items : list Product → Z → option string → Result Page;
  get_now_sorted_by : ProductFilter → string;
  get_sort_by_choices : ProductFilter → SortChoices
}.

Section Views.
Context `{Site}.

(** [django.shortcuts.redirect(to, permanent=False, **kwargs)]. *)
Definition resolve_url (to : RedirectTo) : string :=
  match to with
  | ToUrl url => url
  | ToView viewname kwargs => reverse viewname kwargs
  end.

Definition redirect (to : RedirectTo) (permanent : bool) : Response :=
  if permanent then HttpResponsePermanentRedirect (resolve_url to)
  else HttpResponseRedirect (resolve_url to).

Definition COOKIE_NAME : string := "cart".

(** Modelled from the spec: [set_cart_cookie] of [saleor/cart/utils.py] is
    not part of the sources.  It attaches the cart-identifying cookie to
    the response: the cart's token, under the cart cookie's name. *)
Definition set_cart_cookie (cart : Cart) (response : Response) : Response :=
  set_signed_cookie response COOKIE_NAME (token cart).

(** [views.py], lines 21 to 80. *)
Definition product_details (request : Request) (slug : string)
    (product_id : Z) (form : option Form) : M Response :=
  let* products := reads (products_with_details (user request)) in
  let* product := get_object_or_404 products product_id in
  if bool_decide (get_slug product ≠ slug) then
    ret (HttpResponsePermanentRedirect (get_absolute_url product))
  else
    let* today := reads today in
    let is_visible :=
      match available_on product with
      | None => true
      | Some d => bool_decide (d ≤ today)%Z
      end in
    let* form :=
      match form with
      | None =>
          let* r := handle_cart_form request product false in ret (fst r)
      | Some form => ret form
      end in
    let* availability := reads (get_availability product (discounts request)
                                            (currency request)) in
    let* product_images := reads (get_product_images product) in
    let* variant_picker_data :=
      reads (get_variant_picker_data product (discounts request)
                                     (currency request)) in
    let* product_attributes := reads (get_product_attributes_data product) in
    let show_variant_picker :=
      forallb (fun v => match attributes v with [] => false | _ => true end)
              (variants product) in
    let* json_ld_data :=
      reads (product_json_ld product availability product_attributes) in
    ret (TemplateResponse request "product/details.html"
           (DetailsCtx
              {| is_visible := is_visible;
                 form := form;
                 availability := availability;
                 product := product;
                 product_attributes := product_attributes;
                 product_images := product_images;
                 show_variant_picker := show_variant_picker;
                 variant_picker_data := json_dumps variant_picker_data;
                 json_ld_product_data := json_dumps json_ld_data |})).

(** [views.py], lines 83 to 107. *)
Definition product_add_to_cart (request : Request) (slug : string)
    (product_id : Z) : M Response :=
  if negb (bool_decide (method request = "POST")) then
    ret (redirect
           (ToUrl (reverse "product:details"
                     [("product_id", ArgInt product_id);
                      ("slug", ArgStr slug)]))
           false)
  else
    let* products := reads (products_for_cart (user request)) in
    let* product := get_object_or_404 products product_id in
    let* ' (form, cart) := handle_cart_form request product true in
    let* valid := reads (form_is_valid form) in
    let* response :=
      (if valid then
         let* _ := writes (form_save form) in
         if is_ajax request then
           ret (JsonResponse
                  {[ "next" := JsonString (reverse "cart:index" []) ]} 200)
         else
           ret (redirect (ToView "cart:index" []) false)
       else
         if is_ajax request then
           let* errors := reads (form_errors form) in
           ret (JsonResponse {[ "error" := JsonErrors errors ]} 400)
         else
           product_details request slug product_id (Some form)) in
    if negb (is_authenticated (user request)) then
      ret (set_cart_cookie cart response)
    else
      ret response.

(** [arg_sort_by.startswith('-') if arg_sort_by else False]
    ([views.py], line 127). *)
Definition is_descending_of (arg_sort_by : option string) : bool :=
  match arg_sort_by with
  | Some s => if str_bool s then startswith "-" s else false
  | None => false
  end.

(** [views.py], lines 110 to 134. *)
Definition category_index (request : Request) (path : string)
    (category_id : Z) : M Response :=
  let* categories := reads category_table in
  let* category := get_object_or_404 categories category_id in
  let* actual_path := reads (get_full_path category) in
  if bool_decide (actual_path ≠ path) then
    ret (redirect
           (ToView "product:category"
                   [("path", ArgStr actual_path);
                    ("category_id", ArgInt category_id)])
           true)
  else
    let* all_products := reads (products_with_details (user request)) in
    let products :=
      order_by_name
        (base.filter (fun p => pk category ∈ product_categories p)
                     all_products) in
    let product_filter :=
      ProductFilter_init (GET request) products category in
    let* products_paginated :=
      lift (get_paginator_items (qs product_filter) PAGINATE_BY
                                (QueryDict_get "page" (GET request))) in
    let* products_and_availability :=
      reads (products_with_availability products_paginated
               (discounts request) (currency request)) in
    let now_sorted_by := get_now_sorted_by product_filter in
    let arg_sort_by := QueryDict_get "sort_by" (GET request) in
    let is_descending := is_descending_of arg_sort_by in
    ret (TemplateResponse request "category/index.html"
           (CategoryCtx
              {| category := category;
                 filter_ := product_filter;
                 products := products_and_availability;
                 products_paginated := products_paginated;
                 sort_by_choices := get_sort_by_choices product_filter;
                 now_sorted_by := now_sorted_by;
                 is_descending := is_descending |})).
End Views.

(** ** What the detail page shows *)

Section Outcomes.
Context `{Site}.

(** The context [product_details] renders for product [p] with form [f], in
    the world [w] where the request arrived and the world [w1] the cart-form
    helper left. *)
Definition details_context (request : Request) (p : Product) (f : Form)
    (w w1 : World) : DetailsContext :=
  {| is_visible :=
       match available_on p with
       | None => true
       | Some d => bool_decide (d ≤ today w)%Z
       end;
     form := f;
     availability :=
       get_availability p (discounts request) (currency request) w1;
     product := p;
     product_attributes := get_product_attributes_data p w1;
     product_images := get_product_images p w1;
     show_variant_picker :=
       forallb (fun v => match attributes v with [] => false | _ => true end)
               (variants p);
     variant_picker_data :=
       json_dumps
         (get_variant_picker_data p (discounts request) (currency request) w1);
     json_ld_product_data :=
       json_dumps
         (product_json_ld p
            (get_availability p (discounts request) (currency request) w1)
            (get_product_attributes_data p w1) w1) |}.

(** The form the detail page shows: the one handed in, or the one
    [handle_cart_form] binds without creating a cart. *)
Definition details_form (request : Request) (p : Product)
    (form : option Form) : M Form :=
  match form with
  | None => let* r := handle_cart_form request p false in ret (fst r)
  | Some form => ret form
  end.

(** The last step of [product_add_to_cart] ([views.py], lines 105 to 107):
    the cart cookie is set on the response of an anonymous user. *)
Definition with_cart_cookie (request : Request) (cart : Cart)
    (response : Response) : Response :=
  if negb (is_authenticated (user request)) then
    set_cart_cookie cart response
  else response.
End Outcomes.

(** ** What the listing shows *)

Section Listing.
Context `{Site}.

(** The products [category_index] lists ([views.py], lines 116 to 118): the
    ones the user may see that are in the category, ordered by name. *)
Definition category_products (request : Request) (c : Category) (w : World)
  : list Product :=
  order_by_name
    (base.filter (fun p => pk c ∈ product_categories p)
                 (products_with_details (user request) w)).

(** The filter built over them from the query string ([views.py], lines 119
    and 120). *)
Definition category_filter (request : Request) (c : Category) (w : World)
  : ProductFilter :=
  ProductFilter_init (GET request) (category_products request c w) c.

(** The page asked for ([views.py], lines 121 and 122). *)
Definition category_page (request : Request) (c : Category) (w : World)
  : Result Page :=
  get_paginator_items (qs (category_filter request c w)) PAGINATE_BY
                      (QueryDict_get "page" (GET request)).
End Listing.

(** ** A small shop

    One implementation of the interface, on which the views are run. *)
Module Shop.

(** Modelled from the spec: the values the pricing, image, attribute,
    filter and pagination helpers return are not described any further;
    the shop uses the simplest data that fits each of them. *)
#[global] Instance types : SiteTypes := {|
  Discounts := unit;
  Availability := bool;
  ProductImages := list string;
  ProductAttributes := list (string * string);
  JsonData := string;
  FormErrors := list (string * string);
  ProductFilter := QueryDict * list Product;
  Page := list Product;
  SortChoices := list string
|}.

Definition kwarg (key : string) (kwargs : list (string * UrlArg)) : string :=
  match List.find (fun kv => bool_decide (kv.1 = key)) kwargs with
  | Some (_, ArgStr s) => s
  | Some (_, ArgInt z) => pretty z
  | None => ""
  end.

(** Modelled from the spec: the URL configuration is not part of the
    sources.  A product's page is [/products/<slug>-<id>/], a category's
    [/products/category/<path>-<id>/], the cart's [/cart/]. *)
Definition reverse (viewname : string) (kwargs : list (string * UrlArg))
  : string :=
  if bool_decide (viewname = "product:details") then
    "/products/" ++ kwarg "slug" kwargs ++ "-"
      ++ kwarg "product_id" kwargs ++ "/"
  else if bool_decide (viewname = "product:category") then
    "/products/category/" ++ kwarg "path" kwargs ++ "-"
      ++ kwarg "category_id" kwargs ++ "/"
  else if bool_decide (viewname = "cart:index") then "/cart/"
  else "/".

(** Modelled from the spec: [Product.get_slug] is not part of the sources.
    The shop writes its product names as slugs. *)
Definition get_slug (p : Product) : string := product_name p.

Definition get_absolute_url (p : Product) : string :=
  reverse "product:details"
          [("slug", ArgStr (get_slug p)); ("product_id", ArgInt (pk p))].

(** Modelled from the spec: [Category.get_full_path] is not part of the
    sources.  The hierarchical path of a category is the slugs of its
    ancestors and its own, joined by [/]. *)
Fixpoint full_path (fuel : nat) (table : list Category) (c : Category)
  : string :=
  match category_parent c, fuel with
  | Some parent_id, S fuel' =>
      match List.find (fun a => bool_decide (pk a = parent_id)) table with
      | Some parent =>
          full_path fuel' table parent ++ "/" ++ category_slug c
      | None => category_slug c
      end
  | _, _ => category_slug c
  end.

Definition get_full_path (c : Category) (w : World) : string :=
  full_path (length (category_table w)) (category_table w) c.

Definition is_available (today : date) (p : Product) : bool :=
  match available_on p with
  | None => true
  | Some d => bool_decide (d ≤ today)%Z
  end.

(** Modelled from the spec: the product query sets are not part of the
    sources.  They are scoped to what the user may see: staff see every
    product, everybody else the products that are available today. *)
Definition products_visible_to_user (u : User) (w : World) : list Product :=
  match u with
  | AuthUser _ true => product_table w
  | _ => List.filter (is_available (today w)) (product_table w)
  end.

Definition cart_of_request (request : Request) (w : World) : option Cart :=
  match user request with
  | AuthUser uid _ =>
      List.find (fun c => bool_decide (cart_user c = Some uid))
                (cart_table w)
  | AnonymousUser =>
      match COOKIES request !! COOKIE_NAME with
      | Some t =>
          List.find
            (fun c => bool_decide (token c = t ∧ cart_user c = None))
            (cart_table w)
      | None => None
      end
  end.

Definition new_cart (u : User) (w : World) : Cart :=
  {| token := "cart-" ++ pretty (Z.of_nat (length (cart_table w)));
     cart_user := match u with
                  | AuthUser uid _ => Some uid
                  | AnonymousUser => None
                  end;
     lines := [] |}.

Definition add_cart (c : Cart) (w : World) : World :=
  {| today := today w; product_table := product_table w;
     category_table := category_table w;
     cart_table := cart_table w ++ [c] |}.

(** Modelled from the spec: [handle_cart_form] of
    [saleor/product/utils.py] is not part of the sources.  It retrieves
    the cart of the user or of the session; when there is none, a cart is
    created (and stored) if [create_cart] is set, and otherwise the form
    is bound to an empty cart that is not stored.  The form is bound to
    the cart, the product and [request.POST or None]. *)
Definition handle_cart_form (request : Request) (p : Product)
    (create_cart : bool) : M (Form * Cart) :=
  fun w =>
    let (cart, w') :=
      match cart_of_request request w with
      | Some c => (c, w)
      | None =>
          if create_cart then
            (new_cart (user request) w,
             add_cart (new_cart (user request) w) w)
          else (new_cart (user request) w, w)
      end in
    (Ok ({| form_cart := cart;
            form_product := p;
            form_data := if QueryDict_bool (POST request)
                         then Some (POST request) else None;
            form_discounts := discounts request |}, cart), w').

(** A string of decimal digits as a number; [None] for anything else. *)
Fixpoint parse_digits (s : string) (acc : Z) : option Z :=
  match s with
  | EmptyString => Some acc
  | String c s' =>
      let d := (Z.of_N (Ascii.N_of_ascii c) - 48)%Z in
      if bool_decide (0 ≤ d ≤ 9)%Z then parse_digits s' (10 * acc + d)%Z
      else None
  end.

Definition parse_int (s : string) : option Z :=
  if str_bool s then parse_digits s 0 else None.

Definition clean_variant (f : Form) : option Z :=
  match form_data f with
  | Some data =>
      match QueryDict_get "variant" data with
      | Some s =>
          match parse_int s with
          | Some v =>
              if bool_decide (v ∈ map variant_pk (variants (form_product f)))
              then Some v else None
          | None => None
          end
      | None => None
      end
  | None => None
  end.

Definition clean_quantity (f : Form) : option Z :=
  match form_data f with
  | Some data =>
      match QueryDict_get "quantity" data with
      | Some s =>
          match parse_int s with
          | Some q => if bool_decide (1 ≤ q)%Z then Some q else None
          | None => None
          end
      | None => None
      end
  | None => None
  end.

(** Modelled from the spec: the add-to-cart form is not part of the
    sources.  It is valid when it names a variant of the product and a
    quantity of at least one; its errors are listed by field; saving it
    adds the line item to the form's cart. *)
Definition form_is_valid (f : Form) (w : World) : bool :=
  match clean_variant f, clean_quantity f with
  | Some _, Some _ => true
  | _, _ => false
  end.

Definition form_errors (f : Form) (w : World) : list (string * string) :=
  match clean_variant f with
  | Some _ => []
  | None => [("variant", "Select a valid choice.")]
  end
  ++ match clean_quantity f with
     | Some _ => []
     | None => [("quantity", "Enter a whole number.")]
     end.

Fixpoint add_line (v q : Z) (ls : list (Z * Z)) : list (Z * Z) :=
  match ls with
  | [] => [(v, q)]
  | (v', q') :: ls' =>
      if bool_decide (v' = v) then (v', (q' + q)%Z) :: ls'
      else (v', q') :: add_line v q ls'
  end.

Definition form_save (f : Form) (w : World) : World :=
  match clean_variant f, clean_quantity f with
  | Some v, Some q =>
      {| today := today w; product_table := product_table w;
         category_table := category_table w;
         cart_table :=
           map (fun c =>
                  if bool_decide (token c = token (form_cart f)) then
                    {| token := token c; cart_user := cart_user c;
                       lines := add_line v q (lines c) |}
                  else c)
               (cart_table w) |}
  | _, _ => w
  end.

(** [QuerySet.order_by('name')], by insertion. *)
Fixpoint insert_by_name (p : Product) (l : list Product) : list Product :=
  match l with
  | [] => [p]
  | q :: l' =>
      if String.leb (product_name p) (product_name q) then p :: q :: l'
      else q :: insert_by_name p l'
  end.

Definition order_by_name (l : list Product) : list Product :=
  foldr insert_by_name [] l.

(** Modelled from the spec: [get_paginator_items] of [saleor/core/utils]
    is not part of the sources.  The listing is paginated; a page that is
    no number or does not exist is answered with 404. *)
Definition get_paginator_items (items : list Product) (paginate_by : Z)
    (page_number : option string) : Result (list Product) :=
  let count := Z.of_nat (length items) in
  let num_pages :=
    Z.max 1 ((count + paginate_by - 1) / paginate_by)%Z in
  let number :=
    match page_number with
    | Some s => if str_bool s then parse_digits s 0 else Some 1%Z
    | None => Some 1%Z
    end in
  match number with
  | Some n =>
      if bool_decide (1 ≤ n ≤ num_pages)%Z then
        Ok (take (Z.to_nat paginate_by)
                 (drop (Z.to_nat ((n - 1) * paginate_by)) items))
      else Raise Http404
  | None => Raise Http404
  end.

Definition get_now_sorted_by (pf : QueryDict * list Product) : string :=
  match QueryDict_get "sort_by" pf.1 with
  | Some s =>
      if negb (str_bool s) then "name"
      else if startswith "-" s then substring 1 (String.length s - 1) s
      else s
  | None => "name"
  end.
End Shop.

(** The shop as a [Site]. *)
#[global] Instance shop_site : Site := {|
  reverse := Shop.reverse;
  PAGINATE_BY := 2;
  get_slug := Shop.get_slug;
  get_absolute_url := Shop.get_absolute_url;
  get_full_path := Shop.get_full_path;
  products_with_details := Shop.products_visible_to_user;
  products_for_cart := Shop.products_visible_to_user;
  handle_cart_form := Shop.handle_cart_form;
  get_availability := fun p _ _ w => Shop.is_available (today w) p;
  get_product_images := fun _ _ => [];
  get_variant_picker_data := fun p _ _ _ => product_name p;
  get_product_attributes_data :=
    fun p _ => concat (map attributes (variants p));
  product_json_ld := fun p _ _ _ => product_name p;
  products_with_availability :=
    fun page _ _ w => map (fun p => (p, Shop.is_available (today w) p)) page;
  form_is_valid := Shop.form_is_valid;
  form_errors := Shop.form_errors;
  form_save := Shop.form_save;
  json_dumps := fun s => s;
  order_by_name := Shop.order_by_name;
  ProductFilter_init := fun data queryset _ => (data, queryset);
  qs := snd;
  get_paginator_items := Shop.get_paginator_items;
  get_now_sorted_by := Shop.get_now_sorted_by;
  get_sort_by_choices := fun _ => ["name"; "price"]
|}.

(** ** Requests to the shop *)

Definition mug : Product :=
  {| product_pk := 1; product_name := "blue-mug";
     available_on := Some 736000%Z;
     variants := [ {| variant_pk := 11; attributes := [("colour", "blue")] |} ];
     product_categories := [5%Z] |}.

Definition kettle : Product :=
  {| product_pk := 2; product_name := "kettle";
     available_on := None;
     variants := [ {| variant_pk := 21; attributes := [] |} ];
     product_categories := [4%Z] |}.

Definition kitchen : Category :=
  {| category_pk := 4; category_slug := "kitchen"; category_parent := None |}.

Definition cups : Category :=
  {| category_pk := 5; category_slug := "cups"; category_parent := Some 4%Z |}.

Definition shop_world : World :=
  {| today := 737000; product_table := [mug; kettle];
     category_table := [kitchen; cups]; cart_table := [] |}.

(** A request with no cookie. *)
Definition request_of (method : string) (user : User)
    (requested_with : option string) (GET POST : QueryDict) : Request :=
  {| method := method; user := user;
     HTTP_X_REQUESTED_WITH := requested_with;
     GET := GET; POST := POST; COOKIES := ∅;
     discounts := tt; currency := "USD" |}.

Definition customer : User := AuthUser 7 false.

Definition ajax : option string := Some "XMLHttpRequest".

Definition good_order : QueryDict := [("variant", "11"); ("quantity", "2")].

Definition bad_order : QueryDict := [("variant", "11"); ("quantity", "0")].

(** An anonymous visitor follows a link to the add-to-cart URL. *)
Definition anonymous_get : Request :=
  request_of "GET" AnonymousUser None [] [].

(** A customer posts the page's form, with a quantity of zero, from a page
    whose URL still has the product's old slug. *)
Definition stale_post : Request :=
  request_of "POST" customer None [] bad_order.

(** The page's script posts an order for an anonymous visitor. *)
Definition ajax_post (order : QueryDict) : Request :=
  request_of "POST" AnonymousUser ajax [] order.

(** A customer opens a page. *)
Definition customer_get (GET : QueryDict) : Request :=
  request_of "GET" customer None GET [].

(** A member of staff, and the shop on a day before the mug is released. *)
Definition staff : User := AuthUser 1 true.

Definition preview_world : World :=
  {| today := 735000; product_table := [mug; kettle];
     category_table := [kitchen; cups]; cart_table := [] |}.

(** The page's form posted without script, by a customer and by an
    anonymous visitor. *)
Definition customer_post (order : QueryDict) : Request :=
  request_of "POST" customer None [] order.

Definition anonymous_post (order : QueryDict) : Request :=
  request_of "POST" AnonymousUser None [] order.

(** A member of staff opens a page. *)
Definition staff_get : Request := request_of "GET" staff None [] [].

(** A form for the mug, bound to an order and to a cart not yet stored. *)
Definition mug_form (order : QueryDict) : Form :=
  {| form_cart := Shop.new_cart customer shop_world;
     form_product := mug;
     form_data := Some order;
     form_discounts := tt |}.
(** ** Running the monad *)

Lemma bind_ok {A B} (c : M A) (k : A → M B) w a w' :
  c w = (Ok a, w') → bind c k w = k a w'.
Proof. intros Hc. unfold bind. now rewrite Hc. Qed.

Lemma bind_raise {A B} (c : M A) (k : A → M B) w e w' :
  c w = (Raise e, w') → bind c k w = (Raise e, w').
Proof. intros Hc. unfold bind. now rewrite Hc. Qed.

Lemma bind_reads {A B} (f : World → A) (k : A → M B) w :
  bind (reads f) k w = k (f w) w.
Proof. reflexivity. Qed.

Lemma bind_ret {A B} (a : A) (k : A → M B) w : bind (ret a) k w = k a w.
Proof. reflexivity. Qed.

Lemma bind_writes {B} (f : World → World) (k : unit → M B) w :
  bind (writes f) k w = k tt (f w).
Proof. reflexivity. Qed.

Lemma bind_inv {A B} (c : M A) (k : A → M B) w b w' :
  bind c k w = (Ok b, w') →
  ∃ a w1, c w = (Ok a, w1) ∧ k a w1 = (Ok b, w').
Proof.
  unfold bind. destruct (c w) as [[a|e] w1]; intros Hk.
  - eauto.
  - discriminate.
Qed.

Lemma get_object_or_404_ok {A} `{Model A} (queryset : list A) id x w :
  QuerySet_get queryset id = Ok x →
  get_object_or_404 queryset id w = (Ok x, w).
Proof. intros Hget. unfold get_object_or_404. now rewrite Hget. Qed.

Lemma get_object_or_404_inv {A} `{Model A} (queryset : list A) id x w w' :
  get_object_or_404 queryset id w = (Ok x, w') →
  QuerySet_get queryset id = Ok x ∧ w' = w.
Proof.
  unfold get_object_or_404.
  destruct (QuerySet_get queryset id) as [a|[]]; unfold lift, raise;
    intros Heq; inversion Heq; auto.
Qed.

(** A query set's [get] finds a row of the query set, with the key asked
    for. *)
Lemma QuerySet_get_elem {A} `{Model A} (queryset : list A) id x :
  QuerySet_get queryset id = Ok x → x ∈ queryset ∧ pk x = id.
Proof.
  unfold QuerySet_get.
  destruct (base.filter _ queryset) as [|y [|z l]] eqn:Hf; try discriminate.
  intros [= ->].
  assert (Hin : x ∈ base.filter (fun x => pk x = id) queryset)
    by (rewrite Hf; apply list_elem_of_here).
  apply list_elem_of_filter in Hin. tauto.
Qed.

(** ** The views, case by case *)

Section Properties.
Context `{Site}.

Lemma product_details_found request slug product_id form w p :
  QuerySet_get (products_with_details (user request) w) product_id = Ok p →
  product_details request slug product_id form w =
    if bool_decide (get_slug p ≠ slug) then
      (Ok (HttpResponsePermanentRedirect (get_absolute_url p)), w)
    else
      match details_form request p form w with
      | (Ok f, w1) =>
          (Ok (TemplateResponse request "product/details.html"
                 (DetailsCtx (details_context request p f w w1))), w1)
      | (Raise e, w1) => (Raise e, w1)
      end.
Proof.
  intros Hget. unfold product_details.
  rewrite bind_reads.
  rewrite (bind_ok _ _ _ _ _ (get_object_or_404_ok _ _ _ w Hget)).
  destruct (bool_decide (get_slug p ≠ slug)); [reflexivity|].
  rewrite bind_reads. fold (details_form request p form).
  unfold bind at 1.
  destruct (details_form request p form w) as [[f|e] w1]; reflexivity.
Qed.

Lemma product_details_inv request slug product_id form w response w' :
  product_details request slug product_id form w = (Ok response, w') →
  ∃ p, QuerySet_get (products_with_details (user request) w) product_id = Ok p
       ∧ ((get_slug p ≠ slug
            ∧ response = HttpResponsePermanentRedirect (get_absolute_url p)
            ∧ w' = w)
          ∨ (get_slug p = slug
             ∧ ∃ f, details_form request p form w = (Ok f, w')
                    ∧ response =
                        TemplateResponse request "product/details.html"
                          (DetailsCtx (details_context request p f w w')))).
Proof.
  intros Hrun.
  destruct (QuerySet_get (products_with_details (user request) w) product_id)
    as [p|e] eqn:Hget.
  - exists p. split; [reflexivity|].
    rewrite (product_details_found _ _ _ _ _ _ Hget) in Hrun.
    case_bool_decide as Hslug.
    + left. inversion Hrun. auto.
    + right. split; [destruct (decide (get_slug p = slug)); tauto|].
      destruct (details_form request p form w) as [[f|e] w1];
        inversion Hrun; subst. eauto.
  - exfalso. unfold product_details in Hrun. rewrite bind_reads in Hrun.
    apply bind_inv in Hrun as (a & w1 & Hg & _).
    apply get_object_or_404_inv in Hg as [Hg _]. congruence.
Qed.

Lemma product_details_not_found request slug product_id form w e :
  QuerySet_get (products_with_details (user request) w) product_id = Raise e →
  ∃ e', product_details request slug product_id form w = (Raise e', w).
Proof.
  intros Hget. unfold product_details, get_object_or_404.
  rewrite bind_reads, Hget.
  destruct e; eexists; reflexivity.
Qed.

Lemma product_details_no_cookie request slug product_id form w response w' :
  product_details request slug product_id form w = (Ok response, w') →
  cookies response = ∅.
Proof.
  intros Hrun. apply product_details_inv in Hrun as (p & _ & Hcases).
  destruct Hcases as [(_ & -> & _) | (_ & f & _ & ->)]; reflexivity.
Qed.

(** A POST for a product the user may buy, once the cart form is bound. *)
Lemma product_add_to_cart_post request slug product_id w p f c w1 :
  method request = "POST" →
  QuerySet_get (products_for_cart (user request) w) product_id = Ok p →
  handle_cart_form request p true w = (Ok (f, c), w1) →
  product_add_to_cart request slug product_id w =
    if form_is_valid f w1 then
      (Ok (with_cart_cookie request c
             (if is_ajax request then
                JsonResponse
                  {[ "next" := JsonString (reverse "cart:index" []) ]} 200
              else redirect (ToView "cart:index" []) false)),
       form_save f w1)
    else if is_ajax request then
      (Ok (with_cart_cookie request c
             (JsonResponse {[ "error" := JsonErrors (form_errors f w1) ]}
                           400)),
       w1)
    else
      match product_details request slug product_id (Some f) w1 with
      | (Ok response, w2) => (Ok (with_cart_cookie request c response), w2)
      | (Raise e, w2) => (Raise e, w2)
      end.
Proof.
  intros Hpost Hget Hform. unfold product_add_to_cart, with_cart_cookie.
  rewrite (bool_decide_eq_true_2 _ Hpost). cbn [negb].
  rewrite bind_reads.
  rewrite (bind_ok _ _ _ _ _ (get_object_or_404_ok _ _ _ w Hget)).
  rewrite (bind_ok _ _ _ _ _ Hform). cbn beta iota.
  rewrite bind_reads.
  destruct (form_is_valid f w1).
  - unfold bind at 1. rewrite bind_writes.
    destruct (is_ajax request), (is_authenticated (user request));
      reflexivity.
  - destruct (is_ajax request).
    + unfold bind at 1. rewrite bind_reads.
      destruct (is_authenticated (user request)); reflexivity.
    + unfold bind at 1.
      destruct (product_details request slug product_id (Some f) w1)
        as [[response|e] w2]; [|reflexivity].
      destruct (is_authenticated (user request)); reflexivity.
Qed.

Lemma product_add_to_cart_inv request slug product_id w response w' :
  method request = "POST" →
  product_add_to_cart request slug product_id w = (Ok response, w') →
  ∃ p f c w1,
    QuerySet_get (products_for_cart (user request) w) product_id = Ok p
    ∧ handle_cart_form request p true w = (Ok (f, c), w1).
Proof.
  intros Hpost Hrun. unfold product_add_to_cart in Hrun.
  rewrite (bool_decide_eq_true_2 _ Hpost) in Hrun. cbn [negb] in Hrun.
  rewrite bind_reads in Hrun.
  apply bind_inv in Hrun as (p & w0 & Hget & Hrun).
  apply get_object_or_404_inv in Hget as [Hget ->].
  apply bind_inv in Hrun as ([f c] & w1 & Hform & _).
  eauto 6.
Qed.

Lemma status_code_with_cart_cookie request c response :
  status_code (with_cart_cookie request c response) = status_code response.
Proof.
  unfold with_cart_cookie.
  destruct (is_authenticated (user request)); reflexivity.
Qed.

Lemma location_with_cart_cookie request c response :
  location (with_cart_cookie request c response) = location response.
Proof.
  unfold with_cart_cookie.
  destruct (is_authenticated (user request)); reflexivity.
Qed.

Lemma content_with_cart_cookie request c response :
  content (with_cart_cookie request c response) = content response.
Proof.
  unfold with_cart_cookie.
  destruct (is_authenticated (user request)); reflexivity.
Qed.

Lemma cookies_with_cart_cookie request c response :
  cookies response = ∅ →
  if is_authenticated (user request)
  then cookies (with_cart_cookie request c response) = ∅
  else cookies (with_cart_cookie request c response) !! COOKIE_NAME
       = Some (token c).
Proof.
  intros Hnone. unfold with_cart_cookie.
  destruct (is_authenticated (user request)); cbn; [done|].
  apply lookup_insert_eq.
Qed.

Lemma category_index_found request path category_id w c :
  QuerySet_get (category_table w) category_id = Ok c →
  get_full_path c w ≠ path →
  category_index request path category_id w =
    (Ok (HttpResponsePermanentRedirect
           (reverse "product:category"
                    [("path", ArgStr (get_full_path c w));
                     ("category_id", ArgInt category_id)])), w).
Proof.
  intros Hget Hpath. unfold category_index.
  rewrite bind_reads.
  rewrite (bind_ok _ _ _ _ _ (get_object_or_404_ok _ _ _ w Hget)).
  rewrite bind_reads. now rewrite (bool_decide_eq_true_2 _ Hpath).
Qed.

Lemma category_index_inv request path category_id w response w' template ctx :
  category_index request path category_id w = (Ok response, w') →
  content response = TemplateContent template (CategoryCtx ctx) →
  is_descending ctx = is_descending_of (QueryDict_get "sort_by" (GET request)).
Proof.
  unfold category_index. rewrite bind_reads. intros Hrun.
  apply bind_inv in Hrun as (c & w0 & Hget & Hrun).
  apply get_object_or_404_inv in Hget as [_ ->].
  rewrite bind_reads in Hrun.
  destruct (bool_decide (get_full_path c w ≠ path)).
  - inversion Hrun; subst. discriminate.
  - rewrite bind_reads in Hrun.
    apply bind_inv in Hrun as (page & w1 & _ & Hrun).
    rewrite bind_reads in Hrun. inversion Hrun; subst.
    cbn. intros [= _ <-]. reflexivity.
Qed.

Lemma QueryDict_get_snoc key v (q : QueryDict) :
  QueryDict_get key (q ++ [(key, v)])%list = Some v.
Proof.
  unfold QueryDict_get. rewrite fold_left_app. cbn.
  now rewrite decide_True.
Qed.

Lemma QueryDict_get_absent key (q : QueryDict) :
  (∀ v, (key, v) ∉ q) → QueryDict_get key q = None.
Proof.
  unfold QueryDict_get. generalize (@None string).
  induction q as [|[k v] q IH]; intros acc Habsent; cbn.
  - reflexivity.
  - rewrite decide_False.
    + apply IH. intros v' Hin. apply (Habsent v'). now right.
    + cbn. intros ->. apply (Habsent v). now left.
Qed.

Lemma startswith_char a s :
  startswith (String a "") s = true ↔ ∃ rest, s = String a rest.
Proof.
  unfold startswith. destruct s as [|b s]; cbn [String.prefix].
  - split; [discriminate | intros [rest Hrest]; discriminate].
  - destruct (ascii_dec a b) as [->|Hne].
    + split; [eauto | intros _; now destruct s].
    + split; [discriminate | intros [rest [= -> _]]; congruence].
Qed.

Lemma is_descending_of_true arg_sort_by :
  is_descending_of arg_sort_by = true ↔
  ∃ s, arg_sort_by = Some s ∧ s ≠ "" ∧ ∃ rest, s = String "-"%char rest.
Proof.
  unfold is_descending_of. split.
  - destruct arg_sort_by as [s|]; [|discriminate].
    destruct s as [|c s]; [discriminate|]. cbn [str_bool].
    intros Hstarts. apply startswith_char in Hstarts.
    exists (String c s). eauto.
  - intros (s & -> & _ & rest & ->). cbn [str_bool].
    apply startswith_char. eauto.
Qed.

(** *** The claims *)

(** C2: an add-to-cart request whose method is not POST is answered with a
    redirect to the product's detail page, and the world (with it every cart
    and line item) is left as it was. *)
Theorem product_add_to_cart_not_post request slug product_id w :
  method request ≠ "POST" →
  ∃ response,
    product_add_to_cart request slug product_id w = (Ok response, w)
    ∧ status_code response = 302
    ∧ location response =
        Some (reverse "product:details"
                      [("product_id", ArgInt product_id);
                       ("slug", ArgStr slug)]).
Proof.
  intros Hmethod. unfold product_add_to_cart.
  rewrite (bool_decide_eq_false_2 _ Hmethod). cbn [negb].
  eexists. split; [reflexivity|]. split; reflexivity.
Qed.

(** C3: a detail request for a product the user may see, with a slug that
    is not the product's, is answered with a 301 permanent redirect to the
    product's canonical URL. *)
Theorem product_details_stale_slug request slug product_id form w p :
  QuerySet_get (products_with_details (user request) w) product_id = Ok p →
  get_slug p ≠ slug →
  ∃ response,
    product_details request slug product_id form w = (Ok response, w)
    ∧ status_code response = 301
    ∧ location response = Some (get_absolute_url p).
Proof.
  intros Hget Hslug.
  rewrite (product_details_found _ _ _ _ _ _ Hget).
  rewrite (bool_decide_eq_true_2 _ Hslug).
  eexists. split; [reflexivity|]. split; reflexivity.
Qed.

(** C4: a POST by AJAX whose bound form is invalid is answered with status
    400 and a JSON body that holds the form's errors under the key [error];
    the world is left as the cart-form helper left it, whatever the form's
    [save] would do: the line item is not saved. *)
Theorem product_add_to_cart_ajax_invalid request slug product_id w p f c w1 :
  method request = "POST" →
  QuerySet_get (products_for_cart (user request) w) product_id = Ok p →
  handle_cart_form request p true w = (Ok (f, c), w1) →
  is_ajax request = true →
  form_is_valid f w1 = false →
  ∃ response data,
    product_add_to_cart request slug product_id w = (Ok response, w1)
    ∧ status_code response = 400
    ∧ content response = JsonContent data
    ∧ data !! "error" = Some (JsonErrors (form_errors f w1)).
Proof.
  intros Hpost Hget Hform Hajax Hinvalid.
  rewrite (product_add_to_cart_post _ _ _ _ _ _ _ _ Hpost Hget Hform).
  rewrite Hinvalid, Hajax.
  eexists _, _. split; [reflexivity|].
  rewrite status_code_with_cart_cookie, content_with_cart_cookie.
  split; [reflexivity|]. split; [reflexivity|].
  apply lookup_singleton_eq.
Qed.

(** C5: a POST by AJAX whose bound form is valid saves the form (the line
    item is stored) and is answered with status 200 and a JSON body that
    holds the cart page's URL under the key [next]. *)
Theorem product_add_to_cart_ajax_valid request slug product_id w p f c w1 :
  method request = "POST" →
  QuerySet_get (products_for_cart (user request) w) product_id = Ok p →
  handle_cart_form request p true w = (Ok (f, c), w1) →
  is_ajax request = true →
  form_is_valid f w1 = true →
  ∃ response data,
    product_add_to_cart request slug product_id w
      = (Ok response, form_save f w1)
    ∧ status_code response = 200
    ∧ content response = JsonContent data
    ∧ data !! "next" = Some (JsonString (reverse "cart:index" [])).
Proof.
  intros Hpost Hget Hform Hajax Hvalid.
  rewrite (product_add_to_cart_post _ _ _ _ _ _ _ _ Hpost Hget Hform).
  rewrite Hvalid, Hajax.
  eexists _, _. split; [reflexivity|].
  rewrite status_code_with_cart_cookie, content_with_cart_cookie.
  split; [reflexivity|]. split; [reflexivity|].
  apply lookup_singleton_eq.
Qed.

(** C6: a listing request for an existing category, with a path that is not
    the category's full path, is answered with a permanent redirect to the
    category URL built from the full path and the same category id. *)
Theorem category_index_stale_path request path category_id w c :
  QuerySet_get (category_table w) category_id = Ok c →
  get_full_path c w ≠ path →
  ∃ response,
    category_index request path category_id w = (Ok response, w)
    ∧ status_code response = 301
    ∧ location response =
        Some (reverse "product:category"
                      [("path", ArgStr (get_full_path c w));
                       ("category_id", ArgInt category_id)]).
Proof.
  intros Hget Hpath.
  rewrite (category_index_found _ _ _ _ _ Hget Hpath).
  eexists. split; [reflexivity|]. split; reflexivity.
Qed.

(** C7: the [is_visible] of the context the detail page is rendered with is
    true exactly when the product's [available_on] is [None] or is not
    after today's date; the product is the one the request's id names. *)
Theorem product_details_is_visible
    request slug product_id form w response w' template ctx :
  product_details request slug product_id form w = (Ok response, w') →
  content response = TemplateContent template (DetailsCtx ctx) →
  QuerySet_get (products_with_details (user request) w) product_id
    = Ok (product ctx)
  ∧ (is_visible ctx = true ↔
     available_on (product ctx) = None
     ∨ ∃ d, available_on (product ctx) = Some d ∧ (d ≤ today w)%Z).
Proof.
  intros Hrun Hcontent.
  apply product_details_inv in Hrun as (p & Hget & Hcases).
  destruct Hcases as [(_ & -> & _) | (_ & f & _ & ->)]; [discriminate|].
  cbn in Hcontent. injection Hcontent as _ <-. cbn.
  split; [exact Hget|].
  destruct (available_on p) as [d|].
  - rewrite bool_decide_eq_true. split.
    + intros Hle. right. eauto.
    + intros [Hnone | (d' & [= <-] & Hle)]; [discriminate | exact Hle].
  - split; auto.
Qed.

(** C9: rendering the detail page creates no cart.  With no form handed
    in, the form is bound through [handle_cart_form] with [create_cart]
    false, and nothing else writes: when the helper leaves the carts alone
    for [create_cart] false, so does [product_details], whatever the helper
    does for [create_cart] true. *)
Theorem product_details_keeps_carts request slug product_id w :
  (∀ p w0,
     cart_table (handle_cart_form request p false w0).2 = cart_table w0) →
  cart_table (product_details request slug product_id None w).2
    = cart_table w.
Proof.
  intros Hframe.
  destruct (QuerySet_get (products_with_details (user request) w) product_id)
    as [p|e] eqn:Hget.
  - rewrite (product_details_found _ _ _ _ _ _ Hget).
    destruct (bool_decide (get_slug p ≠ slug)); [reflexivity|].
    unfold details_form, bind. specialize (Hframe p w).
    destruct (handle_cart_form request p false w) as [[r|e] w1];
      cbn in Hframe |- *; exact Hframe.
  - destruct (product_details_not_found request slug product_id None w e Hget)
      as [e' ->].
    reflexivity.
Qed.

(** C10: the [is_descending] of the context the listing is rendered with is
    true exactly when the request has a [sort_by] parameter that is not
    empty and starts with [-]; it is false when the parameter is absent. *)
Theorem category_index_is_descending
    request path category_id w response w' template ctx :
  category_index request path category_id w = (Ok response, w') →
  content response = TemplateContent template (CategoryCtx ctx) →
  (is_descending ctx = true ↔
   ∃ s, QueryDict_get "sort_by" (GET request) = Some s
        ∧ s ≠ "" ∧ ∃ rest, s = String "-"%char rest)
  ∧ ((∀ v, ("sort_by", v) ∉ GET request) → is_descending ctx = false).
Proof.
  intros Hrun Hcontent.
  rewrite (category_index_inv _ _ _ _ _ _ _ _ Hrun Hcontent).
  split; [apply is_descending_of_true|].
  intros Habsent. now rewrite (QueryDict_get_absent _ _ Habsent).
Qed.

(** C1, as the code has it: the response to a POST carries the cart cookie,
    holding the token of the cart the form was bound to, when the user is
    anonymous; the response to an authenticated user carries no cookie, and
    neither does the redirect that answers a request that is no POST. *)
Theorem product_add_to_cart_cookie request slug product_id w response w' :
  product_add_to_cart request slug product_id w = (Ok response, w') →
  (method request = "POST" → is_authenticated (user request) = false →
   ∃ p f c w1,
     QuerySet_get (products_for_cart (user request) w) product_id = Ok p
     ∧ handle_cart_form request p true w = (Ok (f, c), w1)
     ∧ cookies response !! COOKIE_NAME = Some (token c))
  ∧ (is_authenticated (user request) = true → cookies response = ∅)
  ∧ (method request ≠ "POST" → cookies response = ∅).
Proof.
  intros Hrun.
  destruct (decide (method request = "POST")) as [Hpost|Hother].
  - destruct (product_add_to_cart_inv _ _ _ _ _ _ Hpost Hrun)
      as (p & f & c & w1 & Hget & Hform).
    rewrite (product_add_to_cart_post _ _ _ _ _ _ _ _ Hpost Hget Hform)
      in Hrun.
    assert (Hcookie : ∃ r, response = with_cart_cookie request c r
                           ∧ cookies r = ∅).
    { destruct (form_is_valid f w1).
      - injection Hrun as <- _. eexists. split; [reflexivity|].
        now destruct (is_ajax request).
      - destruct (is_ajax request).
        + injection Hrun as <- _. eexists. split; reflexivity.
        + destruct (product_details request slug product_id (Some f) w1)
            as [[r|e] w2] eqn:Hdetails; [|discriminate].
          injection Hrun as <- _. exists r. split; [reflexivity|].
          eapply product_details_no_cookie, Hdetails. }
    destruct Hcookie as (r & -> & Hnone).
    pose proof (cookies_with_cart_cookie request c r Hnone) as Hc.
    split; [|split].
    + intros _ Hanon. rewrite Hanon in Hc. eauto 8.
    + intros Hauth. now rewrite Hauth in Hc.
    + intros Hne. contradiction.
  - assert (Hnone : cookies response = ∅).
    { unfold product_add_to_cart in Hrun.
      rewrite (bool_decide_eq_false_2 _ Hother) in Hrun.
      cbn [negb] in Hrun. injection Hrun as <- _.
      unfold redirect. reflexivity. }
    split; [|split]; [intros Hpost; contradiction|auto..].
Qed.

(** C8, as the code has it: a POST for a product the user may buy binds
    the cart form whatever the slug.  When the form is valid or the request
    is made by AJAX, the answer does not depend on the slug and is no
    permanent redirect.  When the form is invalid and the request is not
    made by AJAX, the answer is the one of [product_details] for the same
    slug, with the cart cookie where due; when the detail query set yields
    the product there and the slug is not the product's, that answer is the
    301 redirect to the product's canonical URL. *)
Theorem product_add_to_cart_slug request slug product_id w p f c w1 :
  method request = "POST" →
  QuerySet_get (products_for_cart (user request) w) product_id = Ok p →
  handle_cart_form request p true w = (Ok (f, c), w1) →
  (form_is_valid f w1 = true ∨ is_ajax request = true →
   ∃ response w2,
     product_add_to_cart request slug product_id w = (Ok response, w2)
     ∧ status_code response ≠ 301
     ∧ ∀ slug',
         product_add_to_cart request slug' product_id w = (Ok response, w2))
  ∧ (form_is_valid f w1 = false → is_ajax request = false →
     product_add_to_cart request slug product_id w =
       match product_details request slug product_id (Some f) w1 with
       | (Ok response, w2) => (Ok (with_cart_cookie request c response), w2)
       | (Raise e, w2) => (Raise e, w2)
       end)
  ∧ (form_is_valid f w1 = false → is_ajax request = false →
     ∀ p',
       QuerySet_get (products_with_details (user request) w1) product_id
         = Ok p' →
       get_slug p' ≠ slug →
       ∃ response,
         product_add_to_cart request slug product_id w = (Ok response, w1)
         ∧ status_code response = 301
         ∧ location response = Some (get_absolute_url p')).
Proof.
  intros Hpost Hget Hform. split; [|split].
  - intros Hcase.
    assert (Hsame : ∀ slug',
      product_add_to_cart request slug' product_id w
      = product_add_to_cart request slug product_id w).
    { intros slug'.
      rewrite !(product_add_to_cart_post _ _ _ _ _ _ _ _ Hpost Hget Hform).
      destruct (form_is_valid f w1); [reflexivity|].
      destruct Hcase as [Hvalid|Hajax]; [discriminate|].
      now rewrite Hajax. }
    rewrite (product_add_to_cart_post _ _ _ _ _ _ _ _ Hpost Hget Hform)
      in Hsame |- *.
    destruct (form_is_valid f w1).
    + eexists _, _. split; [reflexivity|]. split; [|exact Hsame].
      rewrite status_code_with_cart_cookie.
      destruct (is_ajax request); discriminate.
    + destruct Hcase as [Hvalid|Hajax]; [discriminate|].
      rewrite Hajax in Hsame |- *.
      eexists _, _. split; [reflexivity|]. split; [|exact Hsame].
      rewrite status_code_with_cart_cookie. discriminate.
  - intros Hinvalid Hajax.
    rewrite (product_add_to_cart_post _ _ _ _ _ _ _ _ Hpost Hget Hform).
    now rewrite Hinvalid, Hajax.
  - intros Hinvalid Hajax p' Hget' Hslug.
    rewrite (product_add_to_cart_post _ _ _ _ _ _ _ _ Hpost Hget Hform).
    rewrite Hinvalid, Hajax.
    rewrite (product_details_found _ _ _ _ _ _ Hget').
    rewrite (bool_decide_eq_true_2 _ Hslug).
    eexists. split; [reflexivity|].
    rewrite status_code_with_cart_cookie, location_with_cart_cookie.
    split; reflexivity.
Qed.
End Properties.

(** ** The views at work in the shop *)

Lemma shop_handle_cart_form_keeps_carts (request : Request) p w0 :
  cart_table (handle_cart_form request p false w0).2 = cart_table w0.
Proof.
  cbn. unfold Shop.handle_cart_form.
  now destruct (Shop.cart_of_request request w0).
Qed.

Lemma product_add_to_cart_not_post_shop :
  method anonymous_get ≠ "POST"
  ∧ ∃ response,
      product_add_to_cart anonymous_get "blue-mug" 1 shop_world
        = (Ok response, shop_world)
      ∧ status_code response = 302
      ∧ location response =
          Some (reverse "product:details"
                        [("product_id", ArgInt 1); ("slug", ArgStr "blue-mug")]).
Proof.
  split; [discriminate|].
  apply (product_add_to_cart_not_post anonymous_get "blue-mug" 1 shop_world).
  discriminate.
Defined.

Lemma product_details_stale_slug_shop :
  QuerySet_get (products_with_details (user (customer_get [])) shop_world) 1
    = Ok mug
  ∧ get_slug mug ≠ "old-mug"
  ∧ ∃ response,
      product_details (customer_get []) "old-mug" 1 None shop_world
        = (Ok response, shop_world)
      ∧ status_code response = 301
      ∧ location response = Some (get_absolute_url mug).
Proof.
  split; [reflexivity|]. split; [discriminate|].
  apply (product_details_stale_slug (customer_get []) "old-mug" 1 None
           shop_world mug); [reflexivity | discriminate].
Defined.

Lemma product_add_to_cart_ajax_invalid_shop :
  ∃ f c w1,
    method (ajax_post bad_order) = "POST"
    ∧ QuerySet_get
        (products_for_cart (user (ajax_post bad_order)) shop_world) 1 = Ok mug
    ∧ handle_cart_form (ajax_post bad_order) mug true shop_world
        = (Ok (f, c), w1)
    ∧ is_ajax (ajax_post bad_order) = true
    ∧ form_is_valid f w1 = false
    ∧ lines c = []
    ∧ ∃ response data,
        product_add_to_cart (ajax_post bad_order) "blue-mug" 1 shop_world
          = (Ok response, w1)
        ∧ status_code response = 400
        ∧ content response = JsonContent data
        ∧ data !! "error" = Some (JsonErrors (form_errors f w1)).
Proof.
  eexists _, _, _.
  split; [reflexivity|]. split; [reflexivity|].
  split; [vm_compute; reflexivity|].
  split; [reflexivity|]. split; [reflexivity|]. split; [reflexivity|].
  eapply (product_add_to_cart_ajax_invalid (ajax_post bad_order) "blue-mug" 1
            shop_world mug);
    [reflexivity | reflexivity | vm_compute; reflexivity
    | reflexivity | reflexivity].
Defined.

Lemma product_add_to_cart_ajax_valid_shop :
  ∃ f c w1,
    method (ajax_post good_order) = "POST"
    ∧ QuerySet_get
        (products_for_cart (user (ajax_post good_order)) shop_world) 1 = Ok mug
    ∧ handle_cart_form (ajax_post good_order) mug true shop_world
        = (Ok (f, c), w1)
    ∧ is_ajax (ajax_post good_order) = true
    ∧ form_is_valid f w1 = true
    ∧ map lines (cart_table (form_save f w1)) = [[(11, 2)]]
    ∧ ∃ response data,
        product_add_to_cart (ajax_post good_order) "blue-mug" 1 shop_world
          = (Ok response, form_save f w1)
        ∧ status_code response = 200
        ∧ content response = JsonContent data
        ∧ data !! "next" = Some (JsonString (reverse "cart:index" [])).
Proof.
  eexists _, _, _.
  split; [reflexivity|]. split; [reflexivity|].
  split; [vm_compute; reflexivity|].
  split; [reflexivity|]. split; [reflexivity|]. split; [reflexivity|].
  eapply (product_add_to_cart_ajax_valid (ajax_post good_order) "blue-mug" 1
            shop_world mug);
    [reflexivity | reflexivity | vm_compute; reflexivity
    | reflexivity | reflexivity].
Defined.

Lemma category_index_stale_path_shop :
  QuerySet_get (category_table shop_world) 5 = Ok cups
  ∧ get_full_path cups shop_world ≠ "cups"
  ∧ ∃ response,
      category_index (customer_get []) "cups" 5 shop_world
        = (Ok response, shop_world)
      ∧ status_code response = 301
      ∧ location response =
          Some (reverse "product:category"
                        [("path", ArgStr (get_full_path cups shop_world));
                         ("category_id", ArgInt 5)]).
Proof.
  split; [reflexivity|]. split; [discriminate|].
  apply (category_index_stale_path (customer_get []) "cups" 5 shop_world cups);
    [reflexivity | discriminate].
Defined.

Lemma product_details_is_visible_shop :
  ∃ response w' ctx,
    product_details (customer_get []) "blue-mug" 1 None shop_world
      = (Ok response, w')
    ∧ content response = TemplateContent "product/details.html" (DetailsCtx ctx)
    ∧ QuerySet_get
        (products_with_details (user (customer_get [])) shop_world) 1
        = Ok (product ctx)
    ∧ (is_visible ctx = true ↔
       available_on (product ctx) = None
       ∨ ∃ d, available_on (product ctx) = Some d ∧ (d ≤ today shop_world)%Z).
Proof.
  eexists _, _, _.
  split; [vm_compute; reflexivity|]. split; [reflexivity|].
  eapply (product_details_is_visible (customer_get []) "blue-mug" 1 None
            shop_world);
    [vm_compute; reflexivity | reflexivity].
Defined.

Lemma product_details_keeps_carts_shop :
  (∀ p w0,
     cart_table (handle_cart_form (customer_get []) p false w0).2
       = cart_table w0)
  ∧ cart_table
      (product_details (customer_get []) "blue-mug" 1 None shop_world).2
    = cart_table shop_world.
Proof.
  split; [apply shop_handle_cart_form_keeps_carts|].
  apply (product_details_keeps_carts (customer_get []) "blue-mug" 1 shop_world).
  apply shop_handle_cart_form_keeps_carts.
Defined.

Lemma category_index_is_descending_shop :
  ∃ response w' ctx,
    category_index (customer_get [("sort_by", "-name")]) "kitchen/cups" 5
                   shop_world
      = (Ok response, w')
    ∧ content response = TemplateContent "category/index.html" (CategoryCtx ctx)
    ∧ is_descending ctx = true
    ∧ (is_descending ctx = true ↔
       ∃ s, QueryDict_get "sort_by" (GET (customer_get [("sort_by", "-name")]))
              = Some s
            ∧ s ≠ "" ∧ ∃ rest, s = String "-"%char rest)
    ∧ ((∀ v, ("sort_by", v) ∉ GET (customer_get [("sort_by", "-name")])) →
       is_descending ctx = false).
Proof.
  eexists _, _, _.
  split; [vm_compute; reflexivity|]. split; [reflexivity|].
  split; [reflexivity|].
  eapply (category_index_is_descending (customer_get [("sort_by", "-name")])
            "kitchen/cups" 5 shop_world);
    [vm_compute; reflexivity | reflexivity].
Defined.

Lemma product_add_to_cart_cookie_shop :
  ∃ response w',
    product_add_to_cart (ajax_post good_order) "blue-mug" 1 shop_world
      = (Ok response, w')
    ∧ cookies response !! COOKIE_NAME = Some "cart-0"
    ∧ (method (ajax_post good_order) = "POST" →
       is_authenticated (user (ajax_post good_order)) = false →
       ∃ p f c w1,
         QuerySet_get
           (products_for_cart (user (ajax_post good_order)) shop_world) 1
           = Ok p
         ∧ handle_cart_form (ajax_post good_order) p true shop_world
             = (Ok (f, c), w1)
         ∧ cookies response !! COOKIE_NAME = Some (token c))
    ∧ (is_authenticated (user (ajax_post good_order)) = true →
       cookies response = ∅)
    ∧ (method (ajax_post good_order) ≠ "POST" → cookies response = ∅).
Proof.
  eexists _, _.
  split; [vm_compute; reflexivity|]. split; [reflexivity|].
  eapply (product_add_to_cart_cookie (ajax_post good_order) "blue-mug" 1
            shop_world).
  vm_compute; reflexivity.
Defined.

Lemma product_add_to_cart_slug_shop :
  (∃ f c w1,
     method (ajax_post bad_order) = "POST"
     ∧ QuerySet_get
         (products_for_cart (user (ajax_post bad_order)) shop_world) 1 = Ok mug
     ∧ handle_cart_form (ajax_post bad_order) mug true shop_world
         = (Ok (f, c), w1)
     ∧ is_ajax (ajax_post bad_order) = true
     ∧ ∃ response w2,
         product_add_to_cart (ajax_post bad_order) "old-mug" 1 shop_world
           = (Ok response, w2)
         ∧ status_code response ≠ 301
         ∧ ∀ slug',
             product_add_to_cart (ajax_post bad_order) slug' 1 shop_world
               = (Ok response, w2))
  ∧ (∃ f c w1,
       method stale_post = "POST"
       ∧ QuerySet_get (products_for_cart (user stale_post) shop_world) 1
           = Ok mug
       ∧ handle_cart_form stale_post mug true shop_world = (Ok (f, c), w1)
       ∧ form_is_valid f w1 = false
       ∧ is_ajax stale_post = false
       ∧ QuerySet_get (products_with_details (user stale_post) w1) 1 = Ok mug
       ∧ get_slug mug ≠ "old-mug"
       ∧ product_add_to_cart stale_post "old-mug" 1 shop_world =
           match product_details stale_post "old-mug" 1 (Some f) w1 with
           | (Ok response, w2) =>
               (Ok (with_cart_cookie stale_post c response), w2)
           | (Raise e, w2) => (Raise e, w2)
           end
       ∧ ∃ response,
           product_add_to_cart stale_post "old-mug" 1 shop_world
             = (Ok response, w1)
           ∧ status_code response = 301
           ∧ location response = Some (get_absolute_url mug)).
Proof.
  split.
  - eexists _, _, _.
    split; [reflexivity|]. split; [reflexivity|].
    split; [vm_compute; reflexivity|]. split; [reflexivity|].
    eapply (product_add_to_cart_slug (ajax_post bad_order) "old-mug" 1
              shop_world mug);
      [reflexivity | reflexivity | vm_compute; reflexivity
      | right; reflexivity].
  - eexists _, _, _.
    split; [reflexivity|]. split; [reflexivity|].
    split; [vm_compute; reflexivity|].
    split; [reflexivity|]. split; [reflexivity|].
    split; [reflexivity|]. split; [discriminate|].
    split.
    + eapply (product_add_to_cart_slug stale_post "old-mug" 1 shop_world mug);
        [reflexivity | reflexivity | vm_compute; reflexivity
        | reflexivity | reflexivity].
    + eapply (product_add_to_cart_slug stale_post "old-mug" 1 shop_world mug);
        [reflexivity | reflexivity | vm_compute; reflexivity
        | reflexivity | reflexivity | reflexivity | discriminate].
Defined.

(** C1 as the spec states it fails: the anonymous visitor's GET is answered
    with a redirect that carries no cart cookie. *)
Lemma anonymous_get_has_no_cart_cookie :
  is_authenticated (user anonymous_get) = false
  ∧ ∃ response,
      product_add_to_cart anonymous_get "blue-mug" 1 shop_world
        = (Ok response, shop_world)
      ∧ cookies response !! COOKIE_NAME = None.
Proof.
  split; [reflexivity|].
  eexists. split; [vm_compute; reflexivity|]. reflexivity.
Qed.

(** C8 as stated fails: the customer's POST is for a product the customer
    may buy, the form is bound and found invalid, and the answer is the 301
    redirect to the product's canonical URL, because the slug of the request
    is not the product's. *)
Lemma stale_post_is_redirected :
  method stale_post = "POST"
  ∧ QuerySet_get (products_for_cart (user stale_post) shop_world) 1 = Ok mug
  ∧ get_slug mug ≠ "old-mug"
  ∧ ∃ response w',
      product_add_to_cart stale_post "old-mug" 1 shop_world = (Ok response, w')
      ∧ status_code response = 301
      ∧ location response = Some (get_absolute_url mug).
Proof.
  split; [reflexivity|]. split; [reflexivity|]. split; [discriminate|].
  eexists _, _. split; [vm_compute; reflexivity|]. split; reflexivity.
Qed.

(** ** Further behaviour of the views *)

Section Behaviour.
Context `{Site}.

Lemma QuerySet_get_absent {A} `{Model A} (queryset : list A) id :
  (∀ x, x ∈ queryset → pk x ≠ id) → QuerySet_get queryset id = Raise DoesNotExist.
Proof.
  intros Habsent. unfold QuerySet_get.
  destruct (base.filter (λ x, pk x = id) queryset) as [|x l] eqn:Hf;
    [reflexivity|].
  assert (Hin : x ∈ base.filter (λ x, pk x = id) queryset)
    by (rewrite Hf; apply list_elem_of_here).
  apply list_elem_of_filter in Hin as [Hpk Hin].
  destruct (Habsent x Hin Hpk).
Qed.

Lemma get_object_or_404_absent {A} `{Model A} (queryset : list A) id w :
  (∀ x, x ∈ queryset → pk x ≠ id) →
  get_object_or_404 queryset id w = (Raise Http404, w).
Proof.
  intros Habsent. unfold get_object_or_404.
  now rewrite (QuerySet_get_absent _ _ Habsent).
Qed.

Lemma product_details_form_given request slug product_id f w :
  (product_details request slug product_id (Some f) w).2 = w.
Proof.
  destruct (QuerySet_get (products_with_details (user request) w) product_id)
    as [p|e] eqn:Hget.
  - rewrite (product_details_found _ _ _ _ _ _ Hget).
    now destruct (bool_decide (get_slug p ≠ slug)).
  - destruct (product_details_not_found request slug product_id (Some f) w e
                Hget) as [e' ->].
    reflexivity.
Qed.

Lemma category_index_rendered request path category_id w c :
  QuerySet_get (category_table w) category_id = Ok c →
  get_full_path c w = path →
  category_index request path category_id w =
    match category_page request c w with
    | Ok page =>
        (Ok (TemplateResponse request "category/index.html"
               (CategoryCtx
                  {| category := c;
                     filter_ := category_filter request c w;
                     products :=
                       products_with_availability page (discounts request)
                                                  (currency request) w;
                     products_paginated := page;
                     sort_by_choices :=
                       get_sort_by_choices (category_filter request c w);
                     now_sorted_by :=
                       get_now_sorted_by (category_filter request c w);
                     is_descending :=
                       is_descending_of
                         (QueryDict_get "sort_by" (GET request)) |})), w)
    | Raise e => (Raise e, w)
    end.
Proof.
  intros Hget Hpath. unfold category_index.
  rewrite bind_reads.
  rewrite (bind_ok _ _ _ _ _ (get_object_or_404_ok _ _ _ w Hget)).
  rewrite bind_reads.
  rewrite bool_decide_eq_false_2 by (intros Hne; contradiction).
  rewrite bind_reads.
  fold (category_products request c w). fold (category_filter request c w).
  fold (category_page request c w).
  unfold bind, lift.
  destruct (category_page request c w); reflexivity.
Qed.

(** X1: a detail request whose id names no product the user may see raises
    [Http404]; nothing is written, and the cart-form helper is not run. *)
Theorem product_details_missing request slug product_id form w :
  (∀ p, p ∈ products_with_details (user request) w → pk p ≠ product_id) →
  product_details request slug product_id form w = (Raise Http404, w).
Proof.
  intros Habsent. unfold product_details.
  rewrite bind_reads.
  now rewrite (bind_raise _ _ _ _ _ (get_object_or_404_absent _ _ w Habsent)).
Qed.

(** X2: the detail page rendered with a form handed in shows that form and
    the product looked up, with status 200; the cart-form helper is not run,
    so the world is left as it was whatever the helper would do. *)
Theorem product_details_with_form request slug product_id f w p :
  QuerySet_get (products_with_details (user request) w) product_id = Ok p →
  get_slug p = slug →
  ∃ response ctx,
    product_details request slug product_id (Some f) w = (Ok response, w)
    ∧ status_code response = 200
    ∧ location response = None
    ∧ content response
        = TemplateContent "product/details.html" (DetailsCtx ctx)
    ∧ form ctx = f
    ∧ product ctx = p.
Proof.
  intros Hget Hslug.
  rewrite (product_details_found _ _ _ _ _ _ Hget).
  rewrite bool_decide_eq_false_2 by (intros Hne; contradiction).
  cbn. eexists _, _. repeat split; reflexivity.
Qed.

(** X3: visibility does not gate the page.  A product the query set yields
    although it is released only after today is rendered, with status 200
    and [is_visible] false (the preview of the docstring). *)
Theorem product_details_preview request slug product_id form w p d f w1 :
  QuerySet_get (products_with_details (user request) w) product_id = Ok p →
  get_slug p = slug →
  available_on p = Some d →
  (today w < d)%Z →
  details_form request p form w = (Ok f, w1) →
  ∃ response ctx,
    product_details request slug product_id form w = (Ok response, w1)
    ∧ status_code response = 200
    ∧ content response
        = TemplateContent "product/details.html" (DetailsCtx ctx)
    ∧ product ctx = p
    ∧ is_visible ctx = false.
Proof.
  intros Hget Hslug Hdate Hlater Hform.
  rewrite (product_details_found _ _ _ _ _ _ Hget).
  rewrite bool_decide_eq_false_2 by (intros Hne; contradiction).
  rewrite Hform. eexists _, _. repeat split; try reflexivity.
  cbn. rewrite Hdate. apply bool_decide_eq_false_2. lia.
Qed.

(** X4: the [show_variant_picker] of the rendered context is true exactly
    when every variant of the product has attributes; a product with no
    variant shows the picker. *)
Theorem product_details_show_variant_picker
    request slug product_id form w response w' template ctx :
  product_details request slug product_id form w = (Ok response, w') →
  content response = TemplateContent template (DetailsCtx ctx) →
  (show_variant_picker ctx = true ↔
   ∀ v, v ∈ variants (product ctx) → attributes v ≠ [])
  ∧ (variants (product ctx) = [] → show_variant_picker ctx = true).
Proof.
  intros Hrun Hcontent.
  apply product_details_inv in Hrun as (p & Hget & Hcases).
  destruct Hcases as [(_ & -> & _) | (_ & f & _ & ->)]; [discriminate|].
  cbn in Hcontent. injection Hcontent as _ <-. cbn.
  split.
  - rewrite forallb_forall. split.
    + intros Hall v Hin. apply list_elem_of_In in Hin.
      specialize (Hall v Hin). now destruct (attributes v).
    + intros Hall v Hin. apply list_elem_of_In in Hin.
      specialize (Hall v Hin). now destruct (attributes v).
  - now intros ->.
Qed.

(** X5: neither the detail page nor the listing sets a cookie. *)
Theorem pages_set_no_cookie request slug path id form w response w' :
  product_details request slug id form w = (Ok response, w')
  ∨ category_index request path id w = (Ok response, w') →
  cookies response = ∅.
Proof.
  intros [Hrun|Hrun].
  - eapply product_details_no_cookie, Hrun.
  - unfold category_index in Hrun. rewrite bind_reads in Hrun.
    apply bind_inv in Hrun as (c & w0 & Hget & Hrun).
    apply get_object_or_404_inv in Hget as [_ ->].
    rewrite bind_reads in Hrun.
    destruct (bool_decide (get_full_path c w ≠ path)).
    + now inversion Hrun.
    + rewrite bind_reads in Hrun.
      apply bind_inv in Hrun as (page & w1 & _ & Hrun).
      rewrite bind_reads in Hrun. now inversion Hrun.
Qed.

(** X6: a POST whose id names no product the user may buy raises
    [Http404] before the cart form is bound: no cart is created. *)
Theorem product_add_to_cart_missing request slug product_id w :
  method request = "POST" →
  (∀ p, p ∈ products_for_cart (user request) w → pk p ≠ product_id) →
  product_add_to_cart request slug product_id w = (Raise Http404, w).
Proof.
  intros Hpost Habsent. unfold product_add_to_cart.
  rewrite (bool_decide_eq_true_2 _ Hpost). cbn [negb].
  rewrite bind_reads.
  now rewrite (bind_raise _ _ _ _ _ (get_object_or_404_absent _ _ w Habsent)).
Qed.

(** X7: a POST without AJAX whose bound form is valid saves the form and is
    answered with a 302 redirect to the cart page. *)
Theorem product_add_to_cart_valid request slug product_id w p f c w1 :
  method request = "POST" →
  QuerySet_get (products_for_cart (user request) w) product_id = Ok p →
  handle_cart_form request p true w = (Ok (f, c), w1) →
  is_ajax request = false →
  form_is_valid f w1 = true →
  ∃ response,
    product_add_to_cart request slug product_id w
      = (Ok response, form_save f w1)
    ∧ status_code response = 302
    ∧ location response = Some (reverse "cart:index" []).
Proof.
  intros Hpost Hget Hform Hajax Hvalid.
  rewrite (product_add_to_cart_post _ _ _ _ _ _ _ _ Hpost Hget Hform).
  rewrite Hvalid, Hajax.
  eexists. split; [reflexivity|].
  rewrite status_code_with_cart_cookie. split; [reflexivity|].
  unfold with_cart_cookie.
  now destruct (is_authenticated (user request)).
Qed.

(** X8: the form is saved exactly when it is valid, by AJAX or not: after a
    POST with a bound form the world is the saved one when the form is valid
    and the one the cart-form helper left when it is not. *)
Theorem product_add_to_cart_saves_iff_valid
    request slug product_id w p f c w1 :
  method request = "POST" →
  QuerySet_get (products_for_cart (user request) w) product_id = Ok p →
  handle_cart_form request p true w = (Ok (f, c), w1) →
  (product_add_to_cart request slug product_id w).2
    = if form_is_valid f w1 then form_save f w1 else w1.
Proof.
  intros Hpost Hget Hform.
  rewrite (product_add_to_cart_post _ _ _ _ _ _ _ _ Hpost Hget Hform).
  destruct (form_is_valid f w1); [reflexivity|].
  destruct (is_ajax request); [reflexivity|].
  pose proof (product_details_form_given request slug product_id f w1) as Hw.
  destruct (product_details request slug product_id (Some f) w1)
    as [[r|e] w2]; exact Hw.
Qed.

(** X9: a POST without AJAX whose bound form is invalid, for the product's
    own slug, is answered with the detail page (status 200) rendered with
    the bound form, and with the cart cookie for an anonymous user; the
    form is not saved. *)
Theorem product_add_to_cart_invalid_page
    request slug product_id w p f c w1 p' :
  method request = "POST" →
  QuerySet_get (products_for_cart (user request) w) product_id = Ok p →
  handle_cart_form request p true w = (Ok (f, c), w1) →
  is_ajax request = false →
  form_is_valid f w1 = false →
  QuerySet_get (products_with_details (user request) w1) product_id = Ok p' →
  get_slug p' = slug →
  ∃ response ctx,
    product_add_to_cart request slug product_id w = (Ok response, w1)
    ∧ status_code response = 200
    ∧ content response
        = TemplateContent "product/details.html" (DetailsCtx ctx)
    ∧ form ctx = f
    ∧ product ctx = p'
    ∧ (is_authenticated (user request) = false →
       cookies response !! COOKIE_NAME = Some (token c)).
Proof.
  intros Hpost Hget Hform Hajax Hinvalid Hget' Hslug.
  rewrite (product_add_to_cart_post _ _ _ _ _ _ _ _ Hpost Hget Hform).
  rewrite Hinvalid, Hajax.
  rewrite (product_details_found _ _ _ _ _ _ Hget').
  rewrite bool_decide_eq_false_2 by (intros Hne; contradiction).
  cbn [details_form ret].
  eexists _, _. split; [reflexivity|].
  rewrite status_code_with_cart_cookie, content_with_cart_cookie.
  repeat split; try reflexivity.
  intros Hanon. unfold with_cart_cookie. rewrite Hanon. cbn.
  apply lookup_insert_eq.
Qed.

(** X10: whatever the request, a response of [product_add_to_cart] has
    status 200, 301, 302 or 400. *)
Theorem product_add_to_cart_status request slug product_id w response w' :
  product_add_to_cart request slug product_id w = (Ok response, w') →
  status_code response = 200 ∨ status_code response = 301
  ∨ status_code response = 302 ∨ status_code response = 400.
Proof.
  intros Hrun.
  destruct (decide (method request = "POST")) as [Hpost|Hother].
  - destruct (product_add_to_cart_inv _ _ _ _ _ _ Hpost Hrun)
      as (p & f & c & w1 & Hget & Hform).
    rewrite (product_add_to_cart_post _ _ _ _ _ _ _ _ Hpost Hget Hform)
      in Hrun.
    destruct (form_is_valid f w1).
    + injection Hrun as <- _. rewrite status_code_with_cart_cookie.
      destruct (is_ajax request); cbn; auto.
    + destruct (is_ajax request).
      * injection Hrun as <- _. rewrite status_code_with_cart_cookie.
        cbn. auto.
      * destruct (product_details request slug product_id (Some f) w1)
          as [[r|e] w2] eqn:Hdetails; [|discriminate].
        injection Hrun as <- _. rewrite status_code_with_cart_cookie.
        apply product_details_inv in Hdetails as (p' & _ & Hcases).
        destruct Hcases as [(_ & -> & _) | (_ & f' & _ & ->)]; cbn; auto.
  - unfold product_add_to_cart in Hrun.
    rewrite (bool_decide_eq_false_2 _ Hother) in Hrun.
    cbn [negb] in Hrun. injection Hrun as <- _. cbn. auto.
Qed.

(** X11: the listing writes nothing: whatever the request and however it
    ends, the world is left as it was. *)
Theorem category_index_keeps_world request path category_id w :
  (category_index request path category_id w).2 = w.
Proof.
  destruct (QuerySet_get (category_table w) category_id) as [c|e] eqn:Hget.
  - destruct (decide (get_full_path c w = path)) as [Hpath|Hpath].
    + rewrite (category_index_rendered _ _ _ _ _ Hget Hpath).
      now destruct (category_page request c w).
    + now rewrite (category_index_found _ _ _ _ _ Hget Hpath).
  - unfold category_index, get_object_or_404.
    rewrite bind_reads, Hget. now destruct e.
Qed.

(** X12: a listing request whose id names no category raises [Http404]. *)
Theorem category_index_missing request path category_id w :
  (∀ c, c ∈ category_table w → pk c ≠ category_id) →
  category_index request path category_id w = (Raise Http404, w).
Proof.
  intros Habsent. unfold category_index.
  rewrite bind_reads.
  now rewrite (bind_raise _ _ _ _ _ (get_object_or_404_absent _ _ w Habsent)).
Qed.

(** X13: when the paginator refuses the page asked for, the listing raises
    what the paginator raised (the 404 of a page that does not exist). *)
Theorem category_index_bad_page request path category_id w c e :
  QuerySet_get (category_table w) category_id = Ok c →
  get_full_path c w = path →
  category_page request c w = Raise e →
  category_index request path category_id w = (Raise e, w).
Proof.
  intros Hget Hpath Hpage.
  rewrite (category_index_rendered _ _ _ _ _ Hget Hpath).
  now rewrite Hpage.
Qed.

(** X14: for the category's own path there is no redirect: the listing is
    rendered with status 200 for the category looked up, with the page the
    paginator returned and the availability of the products of that page. *)
Theorem category_index_page request path category_id w c page :
  QuerySet_get (category_table w) category_id = Ok c →
  get_full_path c w = path →
  category_page request c w = Ok page →
  ∃ response ctx,
    category_index request path category_id w = (Ok response, w)
    ∧ status_code response = 200
    ∧ location response = None
    ∧ content response
        = TemplateContent "category/index.html" (CategoryCtx ctx)
    ∧ category ctx = c
    ∧ products_paginated ctx = page
    ∧ products ctx
        = products_with_availability page (discounts request)
                                     (currency request) w.
Proof.
  intros Hget Hpath Hpage.
  rewrite (category_index_rendered _ _ _ _ _ Hget Hpath).
  rewrite Hpage. eexists _, _. repeat split; reflexivity.
Qed.


End Behaviour.

(** ** Further behaviour, in the shop *)

Lemma shop_products_absent (u : User) w id :
  product_table w = [mug; kettle] → id ≠ 1%Z → id ≠ 2%Z →
  ∀ p, p ∈ products_with_details u w → pk p ≠ id.
Proof.
  intros Htable H1 H2 p Hin. cbn in Hin.
  assert (Hp : p ∈ product_table w).
  { unfold Shop.products_visible_to_user in Hin.
    destruct u as [|uid [|]]; [|exact Hin|];
      apply list_elem_of_In, filter_In in Hin as [Hin _];
      now apply list_elem_of_In. }
  rewrite Htable in Hp. apply list_elem_of_In in Hp.
  destruct Hp as [<-|[<-|[]]]; intros Heq; vm_compute in Heq; congruence.
Qed.

Lemma product_details_missing_shop :
  (∀ p, p ∈ products_with_details (user (customer_get [])) shop_world →
        pk p ≠ 9%Z)
  ∧ product_details (customer_get []) "blue-mug" 9 None shop_world
    = (Raise Http404, shop_world).
Proof.
  assert (Habsent :
    ∀ p, p ∈ products_with_details (user (customer_get [])) shop_world →
         pk p ≠ 9%Z)
    by (apply shop_products_absent; [reflexivity | discriminate..]).
  split; [exact Habsent|].
  apply (product_details_missing (customer_get []) "blue-mug" 9 None
           shop_world Habsent).
Defined.

Lemma product_details_with_form_shop :
  QuerySet_get (products_with_details (user (customer_get [])) shop_world) 1
    = Ok mug
  ∧ get_slug mug = "blue-mug"
  ∧ ∃ response ctx,
      product_details (customer_get []) "blue-mug" 1
                      (Some (mug_form bad_order)) shop_world
        = (Ok response, shop_world)
      ∧ status_code response = 200
      ∧ location response = None
      ∧ content response
          = TemplateContent "product/details.html" (DetailsCtx ctx)
      ∧ form ctx = mug_form bad_order
      ∧ product ctx = mug.
Proof.
  split; [reflexivity|]. split; [reflexivity|].
  apply (product_details_with_form (customer_get []) "blue-mug" 1
           (mug_form bad_order) shop_world mug); reflexivity.
Defined.

Lemma product_details_preview_shop :
  ∃ f w1,
    QuerySet_get (products_with_details (user staff_get) preview_world) 1
      = Ok mug
    ∧ get_slug mug = "blue-mug"
    ∧ available_on mug = Some 736000%Z
    ∧ (today preview_world < 736000)%Z
    ∧ details_form staff_get mug None preview_world = (Ok f, w1)
    ∧ ∃ response ctx,
        product_details staff_get "blue-mug" 1 None preview_world
          = (Ok response, w1)
        ∧ status_code response = 200
        ∧ content response
            = TemplateContent "product/details.html" (DetailsCtx ctx)
        ∧ product ctx = mug
        ∧ is_visible ctx = false.
Proof.
  eexists _, _.
  split; [reflexivity|]. split; [reflexivity|]. split; [reflexivity|].
  split; [reflexivity|]. split; [vm_compute; reflexivity|].
  eapply (product_details_preview staff_get "blue-mug" 1 None preview_world
            mug 736000%Z);
    [reflexivity | reflexivity | reflexivity | reflexivity
    | vm_compute; reflexivity].
Defined.

Lemma product_details_show_variant_picker_shop :
  ∃ response w' ctx,
    product_details (customer_get []) "kettle" 2 None shop_world
      = (Ok response, w')
    ∧ content response = TemplateContent "product/details.html" (DetailsCtx ctx)
    ∧ show_variant_picker ctx = false
    ∧ (show_variant_picker ctx = true ↔
       ∀ v, v ∈ variants (product ctx) → attributes v ≠ [])
    ∧ (variants (product ctx) = [] → show_variant_picker ctx = true).
Proof.
  eexists _, _, _.
  split; [vm_compute; reflexivity|]. split; [reflexivity|].
  split; [reflexivity|].
  eapply (product_details_show_variant_picker (customer_get []) "kettle" 2
            None shop_world);
    [vm_compute; reflexivity | reflexivity].
Defined.

Lemma pages_set_no_cookie_shop :
  ∃ response w',
    (product_details (customer_get []) "blue-mug" 1 None shop_world
       = (Ok response, w')
     ∨ category_index (customer_get []) "blue-mug" 1 shop_world
       = (Ok response, w'))
    ∧ cookies response = ∅.
Proof.
  eexists _, _. split; [left; vm_compute; reflexivity|].
  eapply (pages_set_no_cookie (customer_get []) "blue-mug" "blue-mug" 1 None
            shop_world).
  left. vm_compute; reflexivity.
Defined.

Lemma product_add_to_cart_missing_shop :
  method (customer_post good_order) = "POST"
  ∧ (∀ p, p ∈ products_for_cart (user (customer_post good_order)) shop_world →
          pk p ≠ 9%Z)
  ∧ product_add_to_cart (customer_post good_order) "blue-mug" 9 shop_world
    = (Raise Http404, shop_world).
Proof.
  assert (Habsent :
    ∀ p, p ∈ products_for_cart (user (customer_post good_order)) shop_world →
         pk p ≠ 9%Z)
    by (apply shop_products_absent; [reflexivity | discriminate..]).
  split; [reflexivity|]. split; [exact Habsent|].
  apply (product_add_to_cart_missing (customer_post good_order) "blue-mug" 9
           shop_world); [reflexivity | exact Habsent].
Defined.

Lemma product_add_to_cart_valid_shop :
  ∃ f c w1,
    method (customer_post good_order) = "POST"
    ∧ QuerySet_get
        (products_for_cart (user (customer_post good_order)) shop_world) 1
        = Ok mug
    ∧ handle_cart_form (customer_post good_order) mug true shop_world
        = (Ok (f, c), w1)
    ∧ is_ajax (customer_post good_order) = false
    ∧ form_is_valid f w1 = true
    ∧ ∃ response,
        product_add_to_cart (customer_post good_order) "blue-mug" 1 shop_world
          = (Ok response, form_save f w1)
        ∧ status_code response = 302
        ∧ location response = Some (reverse "cart:index" []).
Proof.
  eexists _, _, _.
  split; [reflexivity|]. split; [reflexivity|].
  split; [vm_compute; reflexivity|].
  split; [reflexivity|]. split; [reflexivity|].
  eapply (product_add_to_cart_valid (customer_post good_order) "blue-mug" 1
            shop_world mug);
    [reflexivity | reflexivity | vm_compute; reflexivity
    | reflexivity | reflexivity].
Defined.

Lemma product_add_to_cart_saves_iff_valid_shop :
  ∃ f c w1,
    method (customer_post bad_order) = "POST"
    ∧ QuerySet_get
        (products_for_cart (user (customer_post bad_order)) shop_world) 1
        = Ok mug
    ∧ handle_cart_form (customer_post bad_order) mug true shop_world
        = (Ok (f, c), w1)
    ∧ form_is_valid f w1 = false
    ∧ (product_add_to_cart (customer_post bad_order) "blue-mug" 1
                           shop_world).2
      = if form_is_valid f w1 then form_save f w1 else w1.
Proof.
  eexists _, _, _.
  split; [reflexivity|]. split; [reflexivity|].
  split; [vm_compute; reflexivity|]. split; [reflexivity|].
  eapply (product_add_to_cart_saves_iff_valid (customer_post bad_order)
            "blue-mug" 1 shop_world mug);
    [reflexivity | reflexivity | vm_compute; reflexivity].
Defined.

Lemma product_add_to_cart_invalid_page_shop :
  ∃ f c w1,
    method (anonymous_post bad_order) = "POST"
    ∧ QuerySet_get
        (products_for_cart (user (anonymous_post bad_order)) shop_world) 1
        = Ok mug
    ∧ handle_cart_form (anonymous_post bad_order) mug true shop_world
        = (Ok (f, c), w1)
    ∧ is_ajax (anonymous_post bad_order) = false
    ∧ form_is_valid f w1 = false
    ∧ QuerySet_get
        (products_with_details (user (anonymous_post bad_order)) w1) 1
        = Ok mug
    ∧ get_slug mug = "blue-mug"
    ∧ ∃ response ctx,
        product_add_to_cart (anonymous_post bad_order) "blue-mug" 1 shop_world
          = (Ok response, w1)
        ∧ status_code response = 200
        ∧ content response
            = TemplateContent "product/details.html" (DetailsCtx ctx)
        ∧ form ctx = f
        ∧ product ctx = mug
        ∧ (is_authenticated (user (anonymous_post bad_order)) = false →
           cookies response !! COOKIE_NAME = Some (token c)).
Proof.
  eexists _, _, _.
  split; [reflexivity|]. split; [reflexivity|].
  split; [vm_compute; reflexivity|].
  split; [reflexivity|]. split; [reflexivity|].
  split; [reflexivity|]. split; [reflexivity|].
  eapply (product_add_to_cart_invalid_page (anonymous_post bad_order)
            "blue-mug" 1 shop_world mug);
    [reflexivity | reflexivity | vm_compute; reflexivity
    | reflexivity | reflexivity | reflexivity | reflexivity].
Defined.

Lemma product_add_to_cart_status_shop :
  ∃ response w',
    product_add_to_cart stale_post "old-mug" 1 shop_world = (Ok response, w')
    ∧ (status_code response = 200 ∨ status_code response = 301
       ∨ status_code response = 302 ∨ status_code response = 400).
Proof.
  eexists _, _. split; [vm_compute; reflexivity|].
  eapply (product_add_to_cart_status stale_post "old-mug" 1 shop_world).
  vm_compute; reflexivity.
Defined.

Lemma category_index_missing_shop :
  (∀ c, c ∈ category_table shop_world → pk c ≠ 9%Z)
  ∧ category_index (customer_get []) "cups" 9 shop_world
    = (Raise Http404, shop_world).
Proof.
  assert (Habsent : ∀ c, c ∈ category_table shop_world → pk c ≠ 9%Z).
  { intros c Hin. apply list_elem_of_In in Hin.
    destruct Hin as [<-|[<-|[]]]; discriminate. }
  split; [exact Habsent|].
  apply (category_index_missing (customer_get []) "cups" 9 shop_world Habsent).
Defined.

Lemma category_index_bad_page_shop :
  QuerySet_get (category_table shop_world) 5 = Ok cups
  ∧ get_full_path cups shop_world = "kitchen/cups"
  ∧ category_page (customer_get [("page", "7")]) cups shop_world
    = Raise Http404
  ∧ category_index (customer_get [("page", "7")]) "kitchen/cups" 5 shop_world
    = (Raise Http404, shop_world).
Proof.
  split; [reflexivity|]. split; [reflexivity|]. split; [reflexivity|].
  apply (category_index_bad_page (customer_get [("page", "7")]) "kitchen/cups"
           5 shop_world cups); reflexivity.
Defined.

Lemma category_index_page_shop :
  QuerySet_get (category_table shop_world) 5 = Ok cups
  ∧ get_full_path cups shop_world = "kitchen/cups"
  ∧ category_page (customer_get []) cups shop_world = Ok [mug]
  ∧ ∃ response ctx,
      category_index (customer_get []) "kitchen/cups" 5 shop_world
        = (Ok response, shop_world)
      ∧ status_code response = 200
      ∧ location response = None
      ∧ content response
          = TemplateContent "category/index.html" (CategoryCtx ctx)
      ∧ category ctx = cups
      ∧ products_paginated ctx = [mug]
      ∧ products ctx
          = products_with_availability [mug] (discounts (customer_get []))
              (currency (customer_get [])) shop_world.
Proof.
  split; [reflexivity|]. split; [reflexivity|]. split; [reflexivity|].
  apply (category_index_page (customer_get []) "kitchen/cups" 5 shop_world
           cups [mug]); reflexivity.
Defined.


